(** * reggen: the IP-block model and its alias-merge engine

    A shallow embedding of [reggen/ip_block.py] and a verification of its
    construction invariant, the alias merge, the serialization and the
    regwen audit.

    Conventions of the embedding:
    - a Python [dict] is an insertion-ordered association list ([pydict]):
      iteration order is observable through the state left behind by a
      failing merge loop;
    - a device-interface key is [option string]; [None] is the unnamed
      interface;
    - a call that may raise returns [res A = exn + A]; the text of the
      messages is not modelled, only the exception class;
    - [alias_from_raw] mutates [self] in place, so it runs in a state and
      error monad over [IpBlock]: the final state is observable after a
      failure too;
    - [log.debug] and [log.error] calls have no effect on any result and are
      left out. *)

From Stdlib Require Import Ascii String.
From stdpp Require Import base decidable option list strings pretty gmap.

#[local] Set Warnings "-clear-no-such-hyp,-register-all".

Local Open Scope string_scope.
Local Open Scope list_scope.
Local Open Scope Z_scope.

(** ** Exceptions and fallible results *)

Inductive exn : Type :=
  | ValueError
  | KeyError
  | AssertionError
  | Exception (cls : string).

#[global] Instance exn_eq_dec : EqDecision exn.
Proof. solve_decision. Defined.

Definition res (A : Type) : Type := exn + A.

Abbreviation Ok a := (inr a) (only parsing).
Abbreviation raise e := (inl e) (only parsing).

#[global] Instance res_ret : MRet res := fun A a => inr a.
#[global] Instance res_bind : MBind res := fun A B f m =>
  match m with
  | inl e => inl e
  | inr a => f a
  end.

Definition is_ok {A} (r : res A) : bool :=
  match r with inr _ => true | inl _ => false end.

(** ** Raw parsed values (what [hjson.loads] returns) *)

Inductive object : Type :=
  | PyNone
  | PyBool (b : bool)
  | PyInt (z : Z)
  | PyDecimal (lit : string)
  | PyStr (s : string)
  | PyList (l : list object)
  | PyDict (d : list (string * object)).

(** [o is None] *)
Definition is_None (o : object) : bool :=
  match o with PyNone => true | _ => false end.

(** ** Python dictionaries *)

Section pydict.
Context {K : Type} `{EqDecision K} {V : Type}.

(** [d[k]]: the value stored under [k]. *)
Fixpoint dict_get (k : K) (d : list (K * V)) : option V :=
  match d with
  | [] => None
  | (k', v) :: d' => if decide (k' = k) then Some v else dict_get k d'
  end.

(** [d[k] = v]: replaces the value of an existing key in place, appends a
    new key at the end. *)
Fixpoint dict_set (k : K) (v : V) (d : list (K * V)) : list (K * V) :=
  match d with
  | [] => [(k, v)]
  | (k', v') :: d' =>
      if decide (k' = k) then (k', v) :: d' else (k', v') :: dict_set k v d'
  end.

Definition dict_keys (d : list (K * V)) : list K := d.*1.

(** [d[k]] as an expression: [KeyError] on a missing key. *)
Definition getitem (k : K) (d : list (K * V)) : res V :=
  match dict_get k d with
  | Some v => Ok v
  | None => raise KeyError
  end.
End pydict.

Abbreviation pydict K V := (list (K * V)).

(** A device-interface key: a name, or [None] for the unnamed interface. *)
Abbreviation devkey := (option string).

(** [set(d.keys())] *)
Definition keyset {V} (d : pydict devkey V) : gset devkey :=
  list_to_set (dict_keys d).

(** The parsed top-level mapping returned by [check_keys]; it is only read
    with [rd[k]] and [rd.get(k, default)]. *)
Definition rd_getitem (rd : gmap string object) (k : string) : res object :=
  match rd !! k with
  | Some v => Ok v
  | None => raise KeyError
  end.

Definition rd_get (rd : gmap string object) (k : string) (dflt : object) : object :=
  default dflt (rd !! k).

(** ** Collaborator data, as [ip_block.py] reads it *)

(** Registers and fields.  [reg_name] and [regwen] are the attributes
    [check_regwens] reads.

    Modelled from the spec: the remaining attributes of a register and of a
    field ([reggen/register.py] and [reggen/field.py] are not part of the
    sources).  The overridable attributes are name, description, reset value
    and tags; the structural ones are the field layout (bit position and
    width) and the access semantics. *)
Record Field : Type := mkField {
  field_name : string;
  field_desc : string;
  field_resval : Z;
  field_tags : list string;
  field_lsb : N;
  field_width : N;
  field_swaccess : string;
  field_hwaccess : string;
}.

Record Register : Type := mkRegister {
  reg_name : string;
  reg_desc : string;
  reg_tags : list string;
  regwen : option string;
  fields : list Field;
}.

Record MultiReg : Type := mkMultiReg {
  pregs : list Register;
}.

Record RegBlock : Type := mkRegBlock {
  rb_name : option string;
  registers : list Register;
  multiregs : list MultiReg;
}.

#[global] Instance Field_eq_dec : EqDecision Field.
Proof. solve_decision. Defined.
#[global] Instance Register_eq_dec : EqDecision Register.
Proof. solve_decision. Defined.
#[global] Instance MultiReg_eq_dec : EqDecision MultiReg.
Proof. solve_decision. Defined.
#[global] Instance RegBlock_eq_dec : EqDecision RegBlock.
Proof. solve_decision. Defined.

(** The attributes of [BusInterfaces] that [ip_block.py] reads and writes. *)
Record BusInterfaces : Type := mkBusInterfaces {
  named_devices : list string;
  has_unnamed_device : bool;
  named_hosts : list string;
  has_unnamed_host : bool;
  device_async : pydict devkey string;
  device_hier_paths : pydict devkey string;
}.

Definition set_device_hier_paths (p : pydict devkey string) (b : BusInterfaces)
  : BusInterfaces :=
  {| named_devices := named_devices b;
     has_unnamed_device := has_unnamed_device b;
     named_hosts := named_hosts b;
     has_unnamed_host := has_unnamed_host b;
     device_async := device_async b;
     device_hier_paths := p |}.

(** ** The collaborators: everything [ip_block.py] imports

    The models of parameters, clocks and bus interfaces, the register-block
    builder and the helpers of [reggen.lib] are taken as parameters.
    [semantic_version] is the outcome of the guarded import at the top of the
    module: [Some ctor] when the optional library is installed ([ctor] is its
    [Version] constructor), [None] after [ModuleNotFoundError]. *)
Class Collaborators : Type := {
  ReggenParams : Type;
  Clocking : Type;
  ClockingItem : Type;
  SemVer : Type;
  (* reggen.lib *)
  check_keys : object -> string -> list string -> list string ->
               res (gmap string object);
  check_name : object -> string -> res string;
  check_int : object -> string -> res Z;
  check_bool : object -> string -> res bool;
  (* reggen.params *)
  ReggenParams_from_raw : string -> object -> res ReggenParams;
  apply_defaults : ReggenParams -> list (string * string) -> res ReggenParams;
  params_as_dicts : ReggenParams -> list object;
  (* reggen.bus_interfaces *)
  BusInterfaces_from_raw : object -> string -> res BusInterfaces;
  bus_as_dicts : BusInterfaces -> list object;
  (* reggen.clocking *)
  Clocking_from_raw : object -> string -> res Clocking;
  clocking_items : Clocking -> list ClockingItem;
  (* reggen.reg_block *)
  RegBlock_new : Z -> ReggenParams -> RegBlock;
  build_blocks : RegBlock -> object -> BusInterfaces -> Clocking -> bool ->
                 res (pydict devkey RegBlock);
  scrub_alias : RegBlock -> string -> res RegBlock;
  rb_as_dicts : RegBlock -> list object;
  (* semantic_version, and the builtin str() on a value that is not a str *)
  semantic_version : option (object -> res SemVer);
  semver_str : SemVer -> string;
  str_builtin : object -> string;
}.

(** ** The schema tables of [ip_block.py] *)

Definition REQUIRED_ALIAS_FIELDS : list string :=
  ["alias_impl"; "alias_target"; "registers"; "bus_interfaces"].

Definition OPTIONAL_ALIAS_FIELDS : list string := [].

Definition REQUIRED_FIELDS : list string :=
  ["name"; "clocking"; "bus_interfaces"; "registers"].

Definition OPTIONAL_FIELDS : list string :=
  ["human_name"; "one_line_desc"; "one_paragraph_desc"; "design_spec";
   "dv_doc"; "hw_checklist"; "sw_checklist"; "design_stage"; "dif_stage";
   "verification_stage"; "notes"; "version"; "life_stage"; "commit_id";
   "param_list"; "regwidth"; "scan"; "scan_reset"; "scan_en";
   "SPDX-License-Identifier"].

Section IpBlock.
Context `{C : Collaborators}.

(** ** [Version]

    Either the class of the optional library, or the fallback subclass of
    [str] defined when the import fails. *)
Inductive Version : Type :=
  | SemanticVersion (v : SemVer)
  | StrVersion (s : string).

(** [str(value)] *)
Definition py_str (value : object) : string :=
  match value with
  | PyStr s => s
  | _ => str_builtin value
  end.

(** [Version(value)] *)
Definition Version_new (value : object) : res Version :=
  match semantic_version with
  | Some ctor => v ← ctor value; Ok (SemanticVersion v)
  | None => Ok (StrVersion (py_str value))
  end.

(** [str(self.version)] *)
Definition Version_str (v : Version) : string :=
  match v with
  | SemanticVersion v => semver_str v
  | StrVersion s => s
  end.

(** ** The [IpBlock] dataclass *)
Record IpBlock : Type := mkIpBlock {
  name : string;
  regwidth : Z;
  params : ReggenParams;
  reg_blocks : pydict devkey RegBlock;
  bus_interfaces : BusInterfaces;
  clocking : Clocking;
  version : Version;
  scan : bool;
  scan_reset : bool;
  scan_en : bool;
  node : string;
  alias_impl : option string;
}.

Definition set_reg_blocks (rbs : pydict devkey RegBlock) (self : IpBlock) : IpBlock :=
  mkIpBlock (name self) (regwidth self) (params self) rbs
            (bus_interfaces self) (clocking self) (version self) (scan self)
            (scan_reset self) (scan_en self) (node self) (alias_impl self).

Definition set_bus_interfaces (b : BusInterfaces) (self : IpBlock) : IpBlock :=
  mkIpBlock (name self) (regwidth self) (params self) (reg_blocks self)
            b (clocking self) (version self) (scan self)
            (scan_reset self) (scan_en self) (node self) (alias_impl self).

Definition set_version (v : Version) (self : IpBlock) : IpBlock :=
  mkIpBlock (name self) (regwidth self) (params self) (reg_blocks self)
            (bus_interfaces self) (clocking self) v (scan self)
            (scan_reset self) (scan_en self) (node self) (alias_impl self).

Definition set_alias_impl (a : option string) (self : IpBlock) : IpBlock :=
  mkIpBlock (name self) (regwidth self) (params self) (reg_blocks self)
            (bus_interfaces self) (clocking self) (version self) (scan self)
            (scan_reset self) (scan_en self) (node self) a.

(** The device-interface identities a Bus Interface Set declares: the named
    devices and, if there is one, the unnamed device. *)
Definition declared_devices (b : BusInterfaces) : gset devkey :=
  list_to_set ((Some <$> named_devices b) ++
               (if has_unnamed_device b then [None] else [])).

(** [IpBlock.__post_init__]: runs on the freshly built dataclass instance
    and returns it after the filtering, or raises. *)
Definition post_init (self : IpBlock) : res IpBlock :=
  if bool_decide (reg_blocks self = []) then raise AssertionError else
  let '(dev_if_names, self) :=
    if bool_decide (node self ≠ "") then
      ((Some <$> filter (λ i, i = node self)
                        (named_devices (bus_interfaces self))) : list devkey,
       set_reg_blocks
         (filter (λ kv, kv.1 = Some (node self)) (reg_blocks self)) self)
    else
      (Some <$> named_devices (bus_interfaces self), self) in
  let reg_block_names := dict_keys (reg_blocks self) in
  let dev_if_names : list devkey :=
    if has_unnamed_device (bus_interfaces self)
    then dev_if_names ++ [None] else dev_if_names in
  if bool_decide ((list_to_set reg_block_names : gset devkey)
                  = list_to_set dev_if_names)
  then Ok self
  else raise AssertionError.

(** [IpBlock(...)]: the generated [__init__] stores the fields and calls
    [__post_init__]. *)
Definition IpBlock_new (name_ : string) (regwidth_ : Z) (params_ : ReggenParams)
    (reg_blocks_ : pydict devkey RegBlock) (bus_interfaces_ : BusInterfaces)
    (clocking_ : Clocking) (version_ : Version)
    (scan_ scan_reset_ scan_en_ : bool) (node_ : string) : res IpBlock :=
  post_init (mkIpBlock name_ regwidth_ params_ reg_blocks_ bus_interfaces_
                       clocking_ version_ scan_ scan_reset_ scan_en_ node_ None).

(** [IpBlock.from_raw] *)
Definition from_raw (param_defaults : list (string * string)) (raw : object)
    (where_ : string) (node_ : string) : res IpBlock :=
  rd ← check_keys raw ("block at " +:+ where_) REQUIRED_FIELDS OPTIONAL_FIELDS;
  r_name ← rd_getitem rd "name";
  name_ ← check_name r_name ("name of block at " +:+ where_);
  let what := name_ +:+ " block at " +:+ where_ in
  let r_regwidth := rd_get rd "regwidth" PyNone in
  regwidth_ ←
    (if is_None r_regwidth then Ok 32
     else
       w ← check_int r_regwidth ("regwidth field of " +:+ what);
       if bool_decide (w <= 0) then raise ValueError else Ok w);
  params0 ← ReggenParams_from_raw ("parameter list for " +:+ what)
                                  (rd_get rd "param_list" (PyList []));
  params_ ←
    match apply_defaults params0 param_defaults with
    | inr p => Ok p
    | inl ValueError | inl KeyError => raise ValueError
    | inl e => raise e
    end;
  let init_block := RegBlock_new regwidth_ params_ in
  scan_ ← check_bool (rd_get rd "scan" (PyBool false)) ("scan field of " +:+ what);
  r_bus ← rd_getitem rd "bus_interfaces";
  bus_interfaces_ ←
    BusInterfaces_from_raw r_bus ("bus_interfaces field of " +:+ where_);
  r_clocking ← rd_getitem rd "clocking";
  clocking_ ← Clocking_from_raw r_clocking ("clocking field of " +:+ what);
  r_registers ← rd_getitem rd "registers";
  reg_blocks_ ← build_blocks init_block r_registers bus_interfaces_ clocking_ false;
  scan_reset_ ← check_bool (rd_get rd "scan_reset" (PyBool false))
                           ("scan_reset field of " +:+ what);
  scan_en_ ← check_bool (rd_get rd "scan_en" (PyBool false))
                        ("scan_en field of " +:+ what);
  version_ ← Version_new (rd_get rd "version" (PyStr "0.0.0"));
  let reg_block_names := dict_keys reg_blocks_ in
  let dev_if_names : list devkey :=
    (Some <$> named_devices bus_interfaces_) ++
    (if has_unnamed_device bus_interfaces_ then [None] else []) in
  if bool_decide ((list_to_set reg_block_names : gset devkey)
                  ≠ list_to_set dev_if_names)
  then raise ValueError
  else IpBlock_new name_ regwidth_ params_ reg_blocks_ bus_interfaces_
                   clocking_ version_ scan_ scan_reset_ scan_en_ node_.
End IpBlock.

(** ** [RegBlock.apply_alias]

    Modelled from the spec: [reggen/reg_block.py], [register.py] and
    [field.py] are not part of the sources.  The operation asserts the
    structural identity of every non-overridable attribute (register count,
    field layout, bit position and width, access semantics) and accepts
    changes to the overridable subset only (name, description, reset value,
    tags); a structural divergence is a failure.  The merge is field by
    field, in declaration order. *)

Definition field_structure (f : Field) : N * N * string * string :=
  (field_lsb f, field_width f, field_swaccess f, field_hwaccess f).

Definition Field_apply_alias (f alias_field : Field) : res Field :=
  if bool_decide (field_structure alias_field = field_structure f) then
    Ok {| field_name := field_name alias_field;
          field_desc := field_desc alias_field;
          field_resval := field_resval alias_field;
          field_tags := field_tags alias_field;
          field_lsb := field_lsb f;
          field_width := field_width f;
          field_swaccess := field_swaccess f;
          field_hwaccess := field_hwaccess f |}
  else raise ValueError.

(** Pairwise merge of two lists; a difference in length is a structural
    divergence. *)
Fixpoint apply_pairwise {A} (ap : A -> A -> res A) (l al : list A) : res (list A) :=
  match l, al with
  | [], [] => Ok []
  | x :: l', a :: al' =>
      x' ← ap x a;
      r ← apply_pairwise ap l' al';
      Ok (x' :: r)
  | _, _ => raise ValueError
  end.

Definition Register_apply_alias (r alias_reg : Register) : res Register :=
  fs ← apply_pairwise Field_apply_alias (fields r) (fields alias_reg);
  Ok {| reg_name := reg_name alias_reg;
        reg_desc := reg_desc alias_reg;
        reg_tags := reg_tags alias_reg;
        regwen := regwen r;
        fields := fs |}.

Definition apply_alias (rb alias_block : RegBlock) (where_ : string) : res RegBlock :=
  rs ← apply_pairwise Register_apply_alias (registers rb) (registers alias_block);
  Ok {| rb_name := rb_name rb; registers := rs; multiregs := multiregs rb |}.

(** What is left of a register block once the overridable attributes are
    forgotten: the number of registers, and per register its gating register
    and the layout and access of each field. *)
Definition reg_structure (r : Register)
  : option string * list (N * N * string * string) :=
  (regwen r, field_structure <$> fields r).

Definition rb_structure (rb : RegBlock)
  : option string * list (option string * list (N * N * string * string))
    * list MultiReg :=
  (rb_name rb, reg_structure <$> registers rb, multiregs rb).

Section AliasMerge.
Context `{C : Collaborators}.

(** ** Methods that mutate [self]: state and error monad over [IpBlock] *)
Definition M (A : Type) : Type := IpBlock -> IpBlock * res A.

#[global] Instance M_ret : MRet M := fun A a s => (s, Ok a).
#[global] Instance M_bind : MBind M := fun A B f m s =>
  match m s with
  | (s', inr a) => f a s'
  | (s', inl e) => (s', inl e)
  end.

Definition lift {A} (r : res A) : M A := fun s => (s, r).
Definition throw {A} (e : exn) : M A := fun s => (s, inl e).
Definition get_self : M IpBlock := fun s => (s, Ok s).
Definition assign (f : IpBlock -> IpBlock) : M unit := fun s => (f s, Ok tt).

Fixpoint for_each {A} (l : list A) (body : A -> M unit) : M unit :=
  match l with
  | [] => mret tt
  | x :: l' => body x;; for_each l' body
  end.

(** The body of the merge loop of [alias_from_raw], run once per item
    [(block_key, alias_block)] of the alias register blocks.  The register
    blocks held by [reg_blocks] are distinct objects, one per interface,
    so the in-place [apply_alias] on [self.reg_blocks[block_key]] is a
    store under that key. *)
Definition merge_block (scrub : bool) (alias_bus_interfaces : BusInterfaces)
    (where_ : string) (item : devkey * RegBlock) : M unit :=
  let '(block_key, alias_block) := item in
  self ← get_self;
  (if bool_decide (device_async (bus_interfaces self) ≠ []) then
     if bool_decide (device_async alias_bus_interfaces = [])
     then throw ValueError else
     a ← lift (getitem block_key (device_async alias_bus_interfaces));
     g ← lift (getitem block_key (device_async (bus_interfaces self)));
     if bool_decide (a ≠ g) then throw ValueError else mret tt
   else mret tt);;
  if scrub then
    scrubbed ← lift (scrub_alias alias_block where_);
    assign (fun s => set_reg_blocks (dict_set block_key scrubbed (reg_blocks s)) s)
  else
    hier_path ← lift (getitem block_key (device_hier_paths alias_bus_interfaces));
    assign (fun s =>
      set_bus_interfaces
        (set_device_hier_paths
           (dict_set block_key hier_path
                     (device_hier_paths (bus_interfaces s)))
           (bus_interfaces s)) s);;
    self ← get_self;
    generic ← lift (getitem block_key (reg_blocks self));
    merged ← lift (apply_alias generic alias_block where_);
    assign (fun s => set_reg_blocks (dict_set block_key merged (reg_blocks s)) s).

(** [IpBlock.alias_from_raw] *)
Definition alias_from_raw (scrub : bool) (raw : object) (where_ : string) : M unit :=
  rd ← lift (check_keys raw ("block at " +:+ where_)
                        REQUIRED_ALIAS_FIELDS OPTIONAL_ALIAS_FIELDS);
  r_bus ← lift (rd_getitem rd "bus_interfaces");
  alias_bus_interfaces ←
    lift (BusInterfaces_from_raw r_bus ("bus_interfaces of block at " +:+ where_));
  if has_unnamed_host alias_bus_interfaces
     || bool_decide (named_hosts alias_bus_interfaces ≠ [])
  then throw ValueError else
  self ← get_self;
  if has_unnamed_device alias_bus_interfaces
     || has_unnamed_device (bus_interfaces self)
  then throw ValueError else
  let bus_device_names : gset string :=
    list_to_set (named_devices (bus_interfaces self)) in
  let alias_bus_device_names : gset string :=
    list_to_set (named_devices alias_bus_interfaces) in
  if bool_decide (¬ alias_bus_device_names ⊆ bus_device_names)
  then throw ValueError else
  r_impl ← lift (rd_getitem rd "alias_impl");
  impl ← lift (check_name r_impl ("alias_impl of block at " +:+ where_));
  assign (set_alias_impl (Some impl));;
  r_target ← lift (rd_getitem rd "alias_target");
  alias_target ← lift (check_name r_target ("alias_target of block at " +:+ where_));
  self ← get_self;
  if bool_decide (alias_target ≠ name self) then throw ValueError else
  let init_block := RegBlock_new (regwidth self) (params self) in
  r_registers ← lift (rd_getitem rd "registers");
  alias_reg_blocks ←
    lift (build_blocks init_block r_registers (bus_interfaces self)
                       (clocking self) true);
  let alias_reg_block_names : gset devkey := keyset alias_reg_blocks in
  if bool_decide (¬ alias_reg_block_names ⊆ keyset (reg_blocks self))
  then throw ValueError else
  if bool_decide (alias_reg_block_names
                  ≠ list_to_set (Some <$> named_devices alias_bus_interfaces))
  then throw ValueError else
  for_each alias_reg_blocks (merge_block scrub alias_bus_interfaces where_).

(** ** Serialization *)

(** The values stored in the dictionary returned by [_asdict]. *)
Inductive pyvalue : Type :=
  | VStr (s : string)
  | VInt (z : Z)
  | VBool (b : bool)
  | VList (l : list object)
  | VMapping (d : pydict devkey (list object))
  | VClockItems (l : list ClockingItem).

(** [IpBlock._asdict] *)
Definition _asdict (self : IpBlock) : res (pydict string pyvalue) :=
  let ret := [("name", VStr (name self)); ("regwidth", VInt (regwidth self))] in
  ret ←
    (if bool_decide (length (reg_blocks self) = 1%nat)
        && bool_decide (None ∈ dict_keys (reg_blocks self))
     then
       rb ← getitem None (reg_blocks self);
       Ok (dict_set "registers" (VList (rb_as_dicts rb)) ret)
     else
       Ok (dict_set "registers"
             (VMapping ((fun kv => (kv.1, rb_as_dicts kv.2)) <$> reg_blocks self))
             ret));
  let ret := dict_set "param_list" (VList (params_as_dicts (params self))) ret in
  let ret := dict_set "version" (VStr (Version_str (version self))) ret in
  let ret := dict_set "bus_interfaces" (VList (bus_as_dicts (bus_interfaces self))) ret in
  let ret := dict_set "clocking" (VClockItems (clocking_items (clocking self))) ret in
  let ret := dict_set "scan" (VBool (scan self)) ret in
  let ret := dict_set "scan_reset" (VBool (scan_reset self)) ret in
  let ret := dict_set "scan_en" (VBool (scan_en self)) ret in
  Ok ret.

(** ** The regwen audit *)


End AliasMerge.

(** ** A reference implementation of the collaborators

    Small executable versions of the imported components, used to run the
    model on concrete descriptions.  A description is a [PyDict]; a bus
    interface entry gives [direction] (["device"] or ["host"]) and
    optionally [name], [hier_path] and [async]; [registers] is either a
    list of register entries (one unnamed block) or a mapping from
    interface name to such a list. *)
Module Reference.

Definition check_keys (obj : object) (what : string)
    (required optional : list string) : res (gmap string object) :=
  match obj with
  | PyDict d =>
      let missing := filter (fun k => k ∉ dict_keys d) required in
      let unexpected := filter (fun k => k ∉ required ++ optional) (dict_keys d) in
      if bool_decide (missing = [] ∧ unexpected = [])
      then Ok (list_to_map d) else raise ValueError
  | _ => raise ValueError
  end.

Definition check_name (obj : object) (what : string) : res string :=
  match obj with PyStr s => Ok s | _ => raise ValueError end.

Definition check_int (obj : object) (what : string) : res Z :=
  match obj with PyInt z => Ok z | _ => raise ValueError end.

Definition check_bool (obj : object) (what : string) : res bool :=
  match obj with PyBool b => Ok b | _ => raise ValueError end.

Definition check_list (obj : object) : res (list object) :=
  match obj with PyList l => Ok l | _ => raise ValueError end.

Definition str_or (dflt : string) (o : option object) : res string :=
  match o with
  | None => Ok dflt
  | Some (PyStr s) => Ok s
  | Some _ => raise ValueError
  end.

Definition nat_or (dflt : N) (o : option object) : res N :=
  match o with
  | None => Ok dflt
  | Some (PyInt z) => if bool_decide (0 <= z) then Ok (Z.to_N z) else raise ValueError
  | Some _ => raise ValueError
  end.

(** Parameters: the declared entries; a default may only name a declared
    parameter. *)
Definition param_name (o : object) : option string :=
  match o with
  | PyDict d => match dict_get "name" d with Some (PyStr s) => Some s | _ => None end
  | _ => None
  end.

Definition apply_defaults (ps : list object) (defaults : list (string * string))
  : res (list object) :=
  if bool_decide (Forall (fun nv => Some nv.1 ∈ param_name <$> ps) defaults)
  then Ok ps else raise KeyError.

(** Bus interfaces *)
Definition empty_bus : BusInterfaces := mkBusInterfaces [] false [] false [] [].

Definition add_interface (b : BusInterfaces) (entry : object) : res BusInterfaces :=
  match entry with
  | PyDict d =>
      direction ← str_or "" (dict_get "direction" d);
      let key : devkey :=
        match dict_get "name" d with Some (PyStr s) => Some s | _ => None end in
      if bool_decide (direction = "host") then
        Ok (mkBusInterfaces (named_devices b) (has_unnamed_device b)
              (match key with Some n => named_hosts b ++ [n] | None => named_hosts b end)
              (match key with Some _ => has_unnamed_host b | None => true end)
              (device_async b) (device_hier_paths b))
      else if bool_decide (direction = "device") then
        hier ← str_or "u_reg" (dict_get "hier_path" d);
        Ok (mkBusInterfaces
              (match key with Some n => named_devices b ++ [n] | None => named_devices b end)
              (match key with Some _ => has_unnamed_device b | None => true end)
              (named_hosts b) (has_unnamed_host b)
              (match dict_get "async" d with
               | Some (PyStr clk) => dict_set key clk (device_async b)
               | _ => device_async b
               end)
              (dict_set key hier (device_hier_paths b)))
      else raise ValueError
  | _ => raise ValueError
  end.

Fixpoint add_interfaces (b : BusInterfaces) (entries : list object) : res BusInterfaces :=
  match entries with
  | [] => Ok b
  | e :: es => b' ← add_interface b e; add_interfaces b' es
  end.

Definition BusInterfaces_from_raw (raw : object) (where_ : string) : res BusInterfaces :=
  entries ← check_list raw; add_interfaces empty_bus entries.

(** Register blocks *)
Fixpoint mapM {A B} (f : A -> res B) (l : list A) : res (list B) :=
  match l with
  | [] => Ok []
  | x :: l' => y ← f x; ys ← mapM f l'; Ok (y :: ys)
  end.

Definition parse_field (o : object) : res Field :=
  match o with
  | PyDict d =>
      nm ← str_or "" (dict_get "name" d);
      ds ← str_or "" (dict_get "desc" d);
      rv ← nat_or 0 (dict_get "resval" d);
      lsb ← nat_or 0 (dict_get "lsb" d);
      width ← nat_or 1 (dict_get "width" d);
      sw ← str_or "rw" (dict_get "swaccess" d);
      hw ← str_or "hro" (dict_get "hwaccess" d);
      Ok (mkField nm ds (Z.of_N rv) [] lsb width sw hw)
  | _ => raise ValueError
  end.

Definition parse_register (o : object) : res Register :=
  match o with
  | PyDict d =>
      nm ← check_name (default PyNone (dict_get "name" d)) "";
      ds ← str_or "" (dict_get "desc" d);
      fs ← mapM parse_field
                (match dict_get "fields" d with Some (PyList l) => l | _ => [] end);
      Ok (mkRegister nm ds []
            (match dict_get "regwen" d with Some (PyStr s) => Some s | _ => None end)
            fs)
  | _ => raise ValueError
  end.

Definition parse_block (key : devkey) (o : object) : res RegBlock :=
  entries ← check_list o;
  regs ← mapM parse_register entries;
  Ok (mkRegBlock key regs []).

Definition build_blocks (init_block : RegBlock) (raw : object)
    (bus : BusInterfaces) (clk : list object) (is_alias : bool)
  : res (pydict devkey RegBlock) :=
  match raw with
  | PyList _ => rb ← parse_block None raw; Ok [(None, rb)]
  | PyDict d => mapM (fun kv => rb ← parse_block (Some kv.1) kv.2; Ok (Some kv.1, rb)) d
  | _ => raise ValueError
  end.

(** Scrubbing keeps the structure and the names, and drops descriptions,
    tags and reset values. *)
Definition scrub_field (f : Field) : Field :=
  mkField (field_name f) "" 0 [] (field_lsb f) (field_width f)
          (field_swaccess f) (field_hwaccess f).

Definition scrub_register (r : Register) : Register :=
  mkRegister (reg_name r) "" [] (regwen r) (scrub_field <$> fields r).

Definition scrub_alias (rb : RegBlock) (where_ : string) : res RegBlock :=
  Ok (mkRegBlock (rb_name rb) (scrub_register <$> registers rb) (multiregs rb)).

Definition rb_as_dicts (rb : RegBlock) : list object :=
  (fun r => PyDict [("name", PyStr (reg_name r))]) <$> registers rb.

Definition bus_as_dicts (b : BusInterfaces) : list object :=
  ((fun n => PyDict [("direction", PyStr "device"); ("name", PyStr n)])
     <$> named_devices b)
  ++ (if has_unnamed_device b then [PyDict [("direction", PyStr "device")]] else [])
  ++ ((fun n => PyDict [("direction", PyStr "host"); ("name", PyStr n)])
     <$> named_hosts b)
  ++ (if has_unnamed_host b then [PyDict [("direction", PyStr "host")]] else []).

(** The optional version library: MAJOR.MINOR.PATCH, each a non-empty run
    of decimal digits; anything else is a [ValueError]. *)
Definition digit_of (a : Ascii.ascii) : option N :=
  let n := Ascii.N_of_ascii a in
  if bool_decide (48 <= n <= 57)%N then Some (n - 48)%N else None.

Fixpoint parse_number (acc : option N) (s : string) : option N * string :=
  match s with
  | EmptyString => (acc, EmptyString)
  | String a s' =>
      match digit_of a with
      | Some d => parse_number (Some (10 * default 0%N acc + d)%N) s'
      | None => (acc, s)
      end
  end.

Definition parse_semver (s : string) : option (N * N * N) :=
  match parse_number None s with
  | (Some major, String "."%char s1) =>
      match parse_number None s1 with
      | (Some minor, String "."%char s2) =>
          match parse_number None s2 with
          | (Some patch, EmptyString) => Some (major, minor, patch)
          | _ => None
          end
      | _ => None
      end
  | _ => None
  end.

Definition semver_new (value : object) : res (N * N * N) :=
  match value with
  | PyStr s =>
      match parse_semver s with Some v => Ok v | None => raise ValueError end
  | _ => raise ValueError
  end.

Definition semver_str (v : N * N * N) : string :=
  pretty v.1.1 +:+ "." +:+ pretty v.1.2 +:+ "." +:+ pretty v.2.

Definition str_builtin (o : object) : string :=
  match o with
  | PyNone => "None"
  | PyBool true => "True"
  | PyBool false => "False"
  | PyInt z => pretty z
  | PyDecimal lit => lit
  | PyStr s => s
  | PyList _ => "[...]"
  | PyDict _ => "{...}"
  end.

End Reference.

Definition reference (semantic_version : option (object -> res (N * N * N)))
  : Collaborators :=
  {| ReggenParams := list object;
     Clocking := list object;
     ClockingItem := object;
     SemVer := N * N * N;
     check_keys := Reference.check_keys;
     check_name := Reference.check_name;
     check_int := Reference.check_int;
     check_bool := Reference.check_bool;
     ReggenParams_from_raw := fun _ raw => Reference.check_list raw;
     apply_defaults := Reference.apply_defaults;
     params_as_dicts := fun ps => ps;
     BusInterfaces_from_raw := Reference.BusInterfaces_from_raw;
     bus_as_dicts := Reference.bus_as_dicts;
     Clocking_from_raw := fun raw _ => Reference.check_list raw;
     clocking_items := fun c => c;
     RegBlock_new := fun _ _ => mkRegBlock None [] [];
     build_blocks := Reference.build_blocks;
     scrub_alias := Reference.scrub_alias;
     rb_as_dicts := Reference.rb_as_dicts;
     semantic_version := semantic_version;
     semver_str := Reference.semver_str;
     str_builtin := Reference.str_builtin |}.

(** The environment in which [semantic_version] cannot be imported. *)
Definition reference_fallback : Collaborators := reference None.

(** The environment in which it is installed. *)
Definition reference_installed : Collaborators := reference (Some Reference.semver_new).



(** ** Vocabulary of the statements about the alias merge *)

Section AliasVocabulary.
Context `{C : Collaborators}.

(** ** What the alias description declares *)

Definition alias_rd (raw : object) (w : string) : res (gmap string object) :=
  check_keys raw ("block at " +:+ w) REQUIRED_ALIAS_FIELDS OPTIONAL_ALIAS_FIELDS.

(** The bus interfaces declared by the alias description. *)
Definition alias_interfaces (raw : object) (w : string) : res BusInterfaces :=
  rd ← alias_rd raw w;
  r_bus ← rd_getitem rd "bus_interfaces";
  BusInterfaces_from_raw r_bus ("bus_interfaces of block at " +:+ w).

(** Its implementation identifier. *)
Definition alias_impl_name (raw : object) (w : string) : res string :=
  rd ← alias_rd raw w;
  r_impl ← rd_getitem rd "alias_impl";
  check_name r_impl ("alias_impl of block at " +:+ w).

(** Its target name. *)
Definition alias_target_name (raw : object) (w : string) : res string :=
  rd ← alias_rd raw w;
  r_target ← rd_getitem rd "alias_target";
  check_name r_target ("alias_target of block at " +:+ w).

(** Its register blocks, built for the IP block [self]. *)
Definition alias_blocks (raw : object) (w : string) (self : IpBlock)
  : res (pydict devkey RegBlock) :=
  rd ← alias_rd raw w;
  r_registers ← rd_getitem rd "registers";
  build_blocks (RegBlock_new (regwidth self) (params self)) r_registers
               (bus_interfaces self) (clocking self) true.

(** The interface checks made before the implementation identifier is
    recorded. *)
Definition interfaces_admissible (self : IpBlock) (abi : BusInterfaces) : Prop :=
  has_unnamed_host abi = false /\ named_hosts abi = []
  /\ has_unnamed_device abi = false
  /\ has_unnamed_device (bus_interfaces self) = false
  /\ (list_to_set (named_devices abi) : gset string)
     ⊆ list_to_set (named_devices (bus_interfaces self)).

(** The checks made between the recording of the implementation
    identifier and the merge loop. *)
Definition reaches_merge (raw : object) (w : string) (self : IpBlock)
    (abi : BusInterfaces) (arb : pydict devkey RegBlock) : Prop :=
  alias_target_name raw w = Ok (name self)
  /\ alias_blocks raw w self = Ok arb
  /\ keyset arb ⊆ keyset (reg_blocks self)
  /\ keyset arb = list_to_set (Some <$> named_devices abi).

(** [s1] differs from [s] at most in its register blocks and in the
    hierarchical paths of its bus interfaces. *)
Definition frame (s s1 : IpBlock) : Prop :=
  name s1 = name s /\ regwidth s1 = regwidth s /\ params s1 = params s
  /\ clocking s1 = clocking s /\ version s1 = version s
  /\ scan s1 = scan s /\ scan_reset s1 = scan_reset s /\ scan_en s1 = scan_en s
  /\ node s1 = node s /\ alias_impl s1 = alias_impl s
  /\ named_devices (bus_interfaces s1) = named_devices (bus_interfaces s)
  /\ has_unnamed_device (bus_interfaces s1) = has_unnamed_device (bus_interfaces s)
  /\ named_hosts (bus_interfaces s1) = named_hosts (bus_interfaces s)
  /\ has_unnamed_host (bus_interfaces s1) = has_unnamed_host (bus_interfaces s)
  /\ device_async (bus_interfaces s1) = device_async (bus_interfaces s).
End AliasVocabulary.

(** ** Concrete descriptions

    A block [uart] with two named device interfaces [core] and [dma], each
    asynchronous to the bus on its own clock, and alias descriptions for it. *)

Definition device_entry (nm clk hier : string) : object :=
  PyDict [("protocol", PyStr "tlul"); ("direction", PyStr "device");
          ("name", PyStr nm); ("async", PyStr clk); ("hier_path", PyStr hier)].

Definition register_entry (nm desc field_nm : string) : object :=
  PyDict [("name", PyStr nm); ("desc", PyStr desc);
          ("fields", PyList [PyDict [("name", PyStr field_nm);
                                     ("lsb", PyInt 0); ("width", PyInt 1)]])].

Definition uart_fields : list (string * object) :=
  [("name", PyStr "uart");
   ("clocking", PyList [PyDict [("clock", PyStr "clk_i")]]);
   ("bus_interfaces",
      PyList [device_entry "core" "clk_core" "u_core";
              device_entry "dma" "clk_dma" "u_dma"]);
   ("registers",
      PyDict [("core", PyList [register_entry "CTRL" "control" "EN"]);
              ("dma", PyList [register_entry "DMA_CTRL" "dma control" "GO"])])].

Definition uart_raw : object := PyDict uart_fields.

(** The same description with a version that is not a semantic version. *)
Definition uart_raw_odd_version : object :=
  PyDict (uart_fields ++ [("version", PyStr "draft")]).

Definition uart_core_block : RegBlock :=
  mkRegBlock (Some "core")
    [mkRegister "CTRL" "control" [] None [mkField "EN" "" 0 [] 0 1 "rw" "hro"]] [].

Definition uart_dma_block : RegBlock :=
  mkRegBlock (Some "dma")
    [mkRegister "DMA_CTRL" "dma control" [] None
                [mkField "GO" "" 0 [] 0 1 "rw" "hro"]] [].

Definition uart_bus : BusInterfaces :=
  mkBusInterfaces ["core"; "dma"] false [] false
    [(Some "core", "clk_core"); (Some "dma", "clk_dma")]
    [(Some "core", "u_core"); (Some "dma", "u_dma")].

Definition uart_rd : gmap string object := list_to_map uart_fields.

Definition uart_params : @ReggenParams reference_fallback := ([] : list object).

Definition uart_clocking : @Clocking reference_fallback :=
  ([PyDict [("clock", PyStr "clk_i")]] : list object).

(** [uart] as built by [from_raw] without a node selector, in an environment
    without the optional version library. *)
Definition uart : @IpBlock reference_fallback :=
  mkIpBlock "uart" 32 uart_params
            [(Some "core", uart_core_block); (Some "dma", uart_dma_block)]
            uart_bus uart_clocking (StrVersion "0.0.0")
            false false false "" None.

(** The partial view of [uart] selected by the node [core]. *)
Definition uart_core_view : @IpBlock reference_fallback :=
  mkIpBlock "uart" 32 uart_params [(Some "core", uart_core_block)]
            uart_bus uart_clocking (StrVersion "0.0.0")
            false false false "core" None.

(** An alias description for the interface [core] only. *)
Definition alias_core_raw (target : string) : object :=
  PyDict [("alias_impl", PyStr "uart_hardened");
          ("alias_target", PyStr target);
          ("registers",
             PyDict [("core", PyList [register_entry "CFG" "configuration" "ON"])]);
          ("bus_interfaces", PyList [device_entry "core" "clk_core" "u_core_alias"])].

Definition alias_core_block : RegBlock :=
  mkRegBlock (Some "core")
    [mkRegister "CFG" "configuration" [] None [mkField "ON" "" 0 [] 0 1 "rw" "hro"]] [].

(** An alias description for both interfaces whose declaration of [dma]
    disagrees with the block on the asynchronous clock. *)
Definition alias_bad_dma_raw : object :=
  PyDict [("alias_impl", PyStr "uart_hardened");
          ("alias_target", PyStr "uart");
          ("registers",
             PyDict [("core", PyList [register_entry "CFG" "configuration" "ON"]);
                     ("dma", PyList [register_entry "DMA_CFG" "dma configuration" "RUN"])]);
          ("bus_interfaces",
             PyList [device_entry "core" "clk_core" "u_core_alias";
                     device_entry "dma" "clk_other" "u_dma_alias"])].

(** An alias description that declares a host interface. *)
Definition alias_host_raw : object :=
  PyDict [("alias_impl", PyStr "uart_hardened");
          ("alias_target", PyStr "uart");
          ("registers", PyDict []);
          ("bus_interfaces",
             PyList [PyDict [("protocol", PyStr "tlul"); ("direction", PyStr "host");
                             ("name", PyStr "out")]])].

(** [uart] after a merge that aliased [core] and then failed on [dma]. *)
Definition uart_half_merged : @IpBlock reference_fallback :=
  mkIpBlock "uart" 32 uart_params
            [(Some "core", alias_core_block); (Some "dma", uart_dma_block)]
            (set_device_hier_paths
               [(Some "core", "u_core_alias"); (Some "dma", "u_dma")] uart_bus)
            uart_clocking (StrVersion "0.0.0") false false false ""
            (Some "uart_hardened").

(** The view of [uart] selected by a node that names no interface. *)
Definition uart_spi_view : @IpBlock reference_fallback :=
  mkIpBlock "uart" 32 uart_params [] uart_bus uart_clocking (StrVersion "0.0.0")
            false false false "spi" None.

(** The alias block of [core] once scrubbed. *)
Definition scrubbed_core_block : RegBlock :=
  mkRegBlock (Some "core")
    [mkRegister "CFG" "" [] None [mkField "ON" "" 0 [] 0 1 "rw" "hro"]] [].

(** [uart] after a merge in scrub mode that replaced [core] and then failed
    on [dma]. *)
Definition uart_half_scrubbed : @IpBlock reference_fallback :=
  mkIpBlock "uart" 32 uart_params
            [(Some "core", scrubbed_core_block); (Some "dma", uart_dma_block)]
            uart_bus uart_clocking (StrVersion "0.0.0") false false false ""
            (Some "uart_hardened").





(** * Verification *)

(** ** Inversion of the error monad *)

Lemma res_bind_ok {A B} (m : res A) (f : A -> res B) (b : B) :
  m ≫= f = inr b -> exists a, m = inr a /\ f a = inr b.
Proof. destruct m as [e|a]; [discriminate | eauto]. Qed.

Lemma res_bind_step {A B} (m : res A) (f : A -> res B) (a : A) :
  m = inr a -> m ≫= f = f a.
Proof. intros ->. reflexivity. Qed.

(** Peels the successful steps off a hypothesis [m ≫= f = inr b]. *)
Ltac res_inv H :=
  repeat match type of H with
  | _ ≫= _ = inr _ =>
      let a := fresh "a" in
      let Ha := fresh "Hstep" in
      apply res_bind_ok in H as (a & Ha & H)
  end.

(** ** Key sets of dictionaries *)

Section keysets.
Context {V : Type}.
Implicit Types d : pydict devkey V.

Lemma elem_of_keyset d k : k ∈ keyset d <-> k ∈ dict_keys d.
Proof. unfold keyset. apply elem_of_list_to_set. Qed.

Lemma dict_get_Some_keys d k v : dict_get k d = Some v -> k ∈ dict_keys d.
Proof.
  induction d as [|[k' v'] d IH]; simpl; [discriminate|].
  destruct (decide (k' = k)) as [->|]; intros; [left | right; auto].
Qed.

Lemma dict_get_None_keys d k : dict_get k d = None <-> k ∉ dict_keys d.
Proof.
  induction d as [|[k' v'] d IH]; simpl.
  - split; [intros _; apply not_elem_of_nil | done].
  - destruct (decide (k' = k)) as [->|Hne].
    + split; [discriminate | intros []; left].
    + rewrite IH, not_elem_of_cons. naive_solver.
Qed.

Lemma dict_keys_set_present d k v :
  k ∈ dict_keys d -> dict_keys (dict_set k v d) = dict_keys d.
Proof.
  induction d as [|[k' v'] d IH]; simpl; intros Hin.
  - by apply elem_of_nil in Hin.
  - destruct (decide (k' = k)) as [->|Hne]; simpl; [done|].
    f_equal. apply IH. apply elem_of_cons in Hin as [->|]; done.
Qed.

Lemma dict_get_set_eq d k v : dict_get k (dict_set k v d) = Some v.
Proof.
  induction d as [|[k' v'] d IH]; simpl.
  - by rewrite decide_True.
  - destruct (decide (k' = k)) as [->|Hne]; simpl.
    + by rewrite decide_True.
    + by rewrite decide_False.
Qed.

Lemma dict_get_set_ne d k k' v : k ≠ k' -> dict_get k' (dict_set k v d) = dict_get k' d.
Proof.
  intros Hne. induction d as [|[k0 v0] d IH]; simpl.
  - by rewrite decide_False.
  - destruct (decide (k0 = k)) as [->|Hne0]; simpl.
    + by rewrite !decide_False.
    + destruct (decide (k0 = k')); done.
Qed.

Lemma keyset_filter_key d (k : devkey) :
  keyset (filter (fun kv => kv.1 = k) d) = keyset d ∩ {[k]}.
Proof.
  apply set_eq. intros x.
  rewrite elem_of_intersection, elem_of_singleton, !elem_of_keyset.
  unfold dict_keys. rewrite !list_elem_of_fmap. split.
  - intros ([k' v] & -> & Hin). apply list_elem_of_filter in Hin as [Hk Hin].
    simpl in *. split; [exists (k', v); done | done].
  - intros [([k' v] & -> & Hin) Hk]. exists (k', v). split; [done|].
    apply list_elem_of_filter. done.
Qed.
End keysets.

Lemma named_filter_set (l : list string) (x : string) :
  (list_to_set (Some <$> filter (fun i => i = x) l) : gset devkey)
  = list_to_set (Some <$> l) ∩ {[Some x]}.
Proof.
  apply set_eq. intros k.
  rewrite elem_of_intersection, elem_of_singleton, !elem_of_list_to_set,
    !list_elem_of_fmap. split.
  - intros (i & -> & Hin). apply list_elem_of_filter in Hin as [-> Hin]. eauto.
  - intros [(i & -> & Hin) Hk]. exists i. split; [done|].
    apply list_elem_of_filter. split; [congruence | done].
Qed.

Section Construction.
Context `{C : Collaborators}.

Lemma declared_devices_elem (b : BusInterfaces) (k : devkey) :
  k ∈ declared_devices b <->
  (exists n, k = Some n /\ n ∈ named_devices b)
  \/ (k = None /\ has_unnamed_device b = true).
Proof.
  unfold declared_devices.
  rewrite elem_of_list_to_set, elem_of_app, list_elem_of_fmap.
  destruct (has_unnamed_device b).
  - rewrite list_elem_of_singleton. naive_solver.
  - rewrite elem_of_nil. naive_solver.
Qed.

(** What a successful [__post_init__] returns. *)
Lemma post_init_ok (self b : IpBlock) :
  post_init self = Ok b ->
  reg_blocks self ≠ [] /\
  if bool_decide (node self ≠ "") then
    b = set_reg_blocks (filter (fun kv => kv.1 = Some (node self)) (reg_blocks self)) self
    /\ has_unnamed_device (bus_interfaces self) = false
    /\ keyset (reg_blocks b)
       = declared_devices (bus_interfaces self) ∩ {[Some (node self)]}
  else
    b = self /\ keyset (reg_blocks b) = declared_devices (bus_interfaces self).
Proof.
  unfold post_init. case_bool_decide as Hne; [discriminate|].
  intros H. split; [done|].
  case_bool_decide as Hnode; simpl in H.
  - case_bool_decide as Hset; [|discriminate]. injection H as <-.
    simpl. unfold keyset. rewrite Hset.
    destruct (has_unnamed_device (bus_interfaces self)) eqn:Hun.
    + exfalso. assert (Hin : None ∈ (list_to_set
        (dict_keys (filter (fun kv => kv.1 = Some (node self)) (reg_blocks self)))
        : gset devkey)).
      { rewrite Hset, elem_of_list_to_set, elem_of_app, list_elem_of_singleton. auto. }
      apply elem_of_list_to_set in Hin. unfold dict_keys in Hin.
      apply list_elem_of_fmap in Hin as ([k v] & Hk & Hin).
      apply list_elem_of_filter in Hin as [Hk' _]. simpl in *. congruence.
    + split; [done|]. split; [done|].
      unfold declared_devices. rewrite Hun, app_nil_r. apply named_filter_set.
  - case_bool_decide as Hset; [|discriminate]. injection H as <-.
    split; [done|]. unfold keyset, declared_devices. rewrite Hset.
    destruct (has_unnamed_device (bus_interfaces self)); [done|].
    by rewrite app_nil_r.
Qed.
End Construction.

Section ConstructionTheorems.
Context `{C : Collaborators}.

(** The steps a successful [from_raw] went through. *)
Lemma from_raw_ok pd raw w nd b :
  from_raw pd raw w nd = Ok b ->
  exists rd name_ regwidth_ params_ bus clk r_regs built version_
         scan_ scan_reset_ scan_en_,
    check_keys raw ("block at " +:+ w) REQUIRED_FIELDS OPTIONAL_FIELDS = Ok rd /\
    build_blocks (RegBlock_new regwidth_ params_) r_regs bus clk false = Ok built /\
    Version_new (rd_get rd "version" (PyStr "0.0.0")) = Ok version_ /\
    keyset built = declared_devices bus /\
    post_init (mkIpBlock name_ regwidth_ params_ built bus clk version_
                         scan_ scan_reset_ scan_en_ nd None) = Ok b.
Proof.
  unfold from_raw. intros H. res_inv H.
  case_bool_decide as Hset; [discriminate|].
  repeat eexists; eauto.
Qed.

(** C1 (as amended).  A successful [from_raw] built register blocks whose
    key set equals the declared device interfaces (a mismatch never gets
    through); without a node selector the block keeps exactly those
    blocks, and with a node selector [nd] it keeps those keyed by [nd], so
    that its key set is the declared set restricted to [nd], the bus
    interfaces themselves staying unrestricted. *)
Theorem from_raw_bijection pd raw w nd b :
  from_raw pd raw w nd = Ok b ->
  (exists init r_regs built,
      build_blocks init r_regs (bus_interfaces b) (clocking b) false = Ok built
      /\ keyset built = declared_devices (bus_interfaces b)
      /\ reg_blocks b = if bool_decide (nd ≠ "")
                        then filter (fun kv => kv.1 = Some nd) built
                        else built)
  /\ node b = nd
  /\ keyset (reg_blocks b)
     = if bool_decide (nd ≠ "")
       then declared_devices (bus_interfaces b) ∩ {[Some nd]}
       else declared_devices (bus_interfaces b).
Proof.
  intros H. apply from_raw_ok in H
    as (rd & name_ & regwidth_ & params_ & bus & clk & r_regs & built & version_
        & scan_ & scan_reset_ & scan_en_ & _ & Hbuild & _ & Hset & Hpost).
  apply post_init_ok in Hpost as [_ Hpost]. simpl in Hpost.
  case_bool_decide as Hnd.
  - destruct Hpost as (-> & _ & Hkeys). simpl in *.
    split; [|done]. exists (RegBlock_new regwidth_ params_), r_regs, built. done.
  - destruct Hpost as (-> & Hkeys). simpl in *.
    split; [|done]. exists (RegBlock_new regwidth_ params_), r_regs, built. done.
Qed.

(** Without a node selector the dataclass constructor accepts exactly the
    mappings in bijection with the declared interfaces. *)
Lemma IpBlock_new_no_node nm rw ps rbs bus clk ver s sr se :
  IpBlock_new nm rw ps rbs bus clk ver s sr se "" =
  if bool_decide (rbs ≠ [] /\ keyset rbs = declared_devices bus)
  then Ok (mkIpBlock nm rw ps rbs bus clk ver s sr se "" None)
  else raise AssertionError.
Proof.
  unfold IpBlock_new, post_init. simpl.
  case_bool_decide as Hne; simpl.
  - rewrite bool_decide_false by naive_solver. done.
  - assert ((list_to_set (dict_keys rbs) : gset devkey)
            = list_to_set (if has_unnamed_device bus
                           then (Some <$> named_devices bus) ++ [None]
                           else Some <$> named_devices bus)
            <-> keyset rbs = declared_devices bus) as Hiff.
    { unfold keyset, declared_devices.
      destruct (has_unnamed_device bus); [done|]. by rewrite app_nil_r. }
    case_bool_decide as Hset.
    + rewrite bool_decide_true by naive_solver. done.
    + rewrite bool_decide_false by naive_solver. done.
Qed.

(** C4 (as amended).  When the register blocks are in bijection with the
    declared interfaces, none of which is unnamed, a node selector [nd]
    that names one of the declared interfaces yields a block that keeps
    the blocks keyed by [nd] and whose key set is exactly [{nd}], however
    many interfaces were declared.  A block that declares an unnamed
    device is rejected whenever a node selector is given: the unnamed
    interface cannot be selected. *)
Theorem node_filter_selects nm rw ps rbs bus clk ver s sr se nd :
  nd ≠ "" ->
  (nd ∈ named_devices bus ->
   has_unnamed_device bus = false ->
   keyset rbs = declared_devices bus ->
   exists b,
     IpBlock_new nm rw ps rbs bus clk ver s sr se nd = Ok b
     /\ reg_blocks b = filter (fun kv => kv.1 = Some nd) rbs
     /\ keyset (reg_blocks b) = {[Some nd]})
  /\ (has_unnamed_device bus = true ->
      IpBlock_new nm rw ps rbs bus clk ver s sr se nd = raise AssertionError).
Proof.
  intros Hnd. split.
  - intros Hin Hun Hset.
    assert (Hsel : declared_devices bus ∩ {[Some nd]} = ({[Some nd]} : gset devkey)).
    { apply set_eq. intros k. rewrite elem_of_intersection, elem_of_singleton,
        declared_devices_elem. naive_solver. }
    unfold IpBlock_new, post_init. simpl.
    rewrite bool_decide_false.
    2:{ intros ->. unfold keyset in Hset. simpl in Hset.
        assert (Some nd ∈ declared_devices bus) as Hd
          by (apply declared_devices_elem; eauto).
        rewrite <- Hset in Hd. by apply elem_of_empty in Hd. }
    rewrite bool_decide_true by done. simpl. rewrite Hun.
    rewrite bool_decide_true.
    2:{ rewrite named_filter_set. fold (keyset (filter (fun kv => kv.1 = Some nd) rbs)).
        rewrite keyset_filter_key, Hset. unfold declared_devices.
        by rewrite Hun, app_nil_r. }
    eexists. split; [done|]. simpl. split; [done|].
    by rewrite keyset_filter_key, Hset.
  - intros Hun. unfold IpBlock_new, post_init. simpl.
    case_bool_decide; [done|]. rewrite bool_decide_true by done. simpl.
    rewrite Hun. rewrite bool_decide_false; [done|].
    intros Hset.
    assert (Hin : None ∈ (list_to_set
        (dict_keys (filter (fun kv => kv.1 = Some nd) rbs)) : gset devkey)).
    { rewrite Hset, elem_of_list_to_set, elem_of_app, list_elem_of_singleton. auto. }
    apply elem_of_list_to_set in Hin. unfold dict_keys in Hin.
    apply list_elem_of_fmap in Hin as ([k v] & Hk & Hin).
    apply list_elem_of_filter in Hin as [Hk' _]. simpl in *. congruence.
Qed.
End ConstructionTheorems.

Section VersionTheorems.
Context `{C : Collaborators}.

Lemma rd_getitem_insert_ne rd k k' v :
  k ≠ k' -> rd_getitem (<[k:=v]> rd) k' = rd_getitem rd k'.
Proof. intros. unfold rd_getitem. by rewrite lookup_insert_ne. Qed.

Lemma rd_get_insert_ne rd k k' v d :
  k ≠ k' -> rd_get (<[k:=v]> rd) k' d = rd_get rd k' d.
Proof. intros. unfold rd_get. by rewrite lookup_insert_ne. Qed.

Lemma rd_get_insert_eq rd k v d : rd_get (<[k:=v]> rd) k d = v.
Proof. unfold rd_get. by rewrite lookup_insert_eq. Qed.

(** [__post_init__] neither reads nor writes the version. *)
Lemma post_init_version self b v :
  post_init self = Ok b -> post_init (set_version v self) = Ok (set_version v b).
Proof.
  unfold post_init. simpl.
  case_bool_decide; [discriminate|].
  case_bool_decide; simpl; case_bool_decide; try discriminate;
    intros [= <-]; done.
Qed.

(** C7 (as amended).  [from_raw] hands the declared version, or ["0.0.0"]
    when none is declared, to [Version].  In an environment without the
    optional [semantic_version] library the version is carried as a plain
    string, and no version value can abort construction: a description
    that differs from an accepted one in its version only is accepted
    too. *)
Theorem from_raw_version pd raw w nd rd b :
  check_keys raw ("block at " +:+ w) REQUIRED_FIELDS OPTIONAL_FIELDS = Ok rd ->
  from_raw pd raw w nd = Ok b ->
  Version_new (rd_get rd "version" (PyStr "0.0.0")) = Ok (version b)
  /\ (semantic_version = None ->
      version b = StrVersion (py_str (rd_get rd "version" (PyStr "0.0.0")))
      /\ (rd !! "version" = None -> version b = StrVersion "0.0.0")
      /\ forall raw' v,
          check_keys raw' ("block at " +:+ w) REQUIRED_FIELDS OPTIONAL_FIELDS
            = Ok (<["version":=v]> rd) ->
          from_raw pd raw' w nd = Ok (set_version (StrVersion (py_str v)) b)).
Proof.
  intros Hck H.
  assert (Hv : Version_new (rd_get rd "version" (PyStr "0.0.0")) = Ok (version b)).
  { pose proof H as H'. apply from_raw_ok in H'
      as (rd' & name_ & regwidth_ & params_ & bus & clk & r_regs & built & version_
          & scan_ & scan_reset_ & scan_en_ & Hck' & _ & Hver & _ & Hpost).
    rewrite Hck in Hck'. injection Hck' as <-.
    apply post_init_ok in Hpost as [_ Hpost]. simpl in Hpost.
    case_bool_decide; destruct Hpost as [-> _]; done. }
  split; [done|]. intros Hfb.
  assert (Hplain : version b
                   = StrVersion (py_str (rd_get rd "version" (PyStr "0.0.0")))).
  { unfold Version_new in Hv. rewrite Hfb in Hv. congruence. }
  split; [done|]. split.
  { intros Hnone. rewrite Hplain. unfold rd_get. by rewrite Hnone. }
  intros raw' v Hck'. unfold from_raw in *. rewrite Hck in H. rewrite Hck'.
  simpl in *.
  rewrite rd_get_insert_eq.
  rewrite !rd_getitem_insert_ne, !rd_get_insert_ne by done.
  res_inv H.
  repeat (erewrite res_bind_step by eassumption).
  unfold Version_new in *. rewrite Hfb in *. simpl in *.
  case_bool_decide; [discriminate|].
  unfold IpBlock_new in *.
  apply (post_init_version _ _ (StrVersion (py_str v))) in H. exact H.
Qed.
End VersionTheorems.

(** ** [apply_alias] keeps the structure of a register block *)

Lemma Field_apply_alias_structure f a f' :
  Field_apply_alias f a = Ok f' -> field_structure f' = field_structure f.
Proof.
  unfold Field_apply_alias. case_bool_decide; [|discriminate].
  intros [= <-]. reflexivity.
Qed.

Lemma apply_pairwise_fmap {A B} (g : A -> B) (ap : A -> A -> res A) :
  (forall x a x', ap x a = Ok x' -> g x' = g x) ->
  forall l al l', apply_pairwise ap l al = Ok l' -> g <$> l' = g <$> l.
Proof.
  intros Hap. induction l as [|x l IH]; intros [|a al] l' H; simpl in H;
    try discriminate.
  - by injection H as <-.
  - res_inv H. injection H as <-. simpl. f_equal; eauto.
Qed.

Lemma Register_apply_alias_structure r a r' :
  Register_apply_alias r a = Ok r' -> reg_structure r' = reg_structure r.
Proof.
  unfold Register_apply_alias. intros H. res_inv H. injection H as <-.
  unfold reg_structure. simpl. f_equal.
  eapply apply_pairwise_fmap; [|eassumption].
  apply Field_apply_alias_structure.
Qed.

Lemma apply_alias_structure rb a w rb' :
  apply_alias rb a w = Ok rb' -> rb_structure rb' = rb_structure rb.
Proof.
  unfold apply_alias. intros H. res_inv H. injection H as <-.
  unfold rb_structure. simpl. do 2 f_equal.
  eapply apply_pairwise_fmap; [|eassumption].
  apply Register_apply_alias_structure.
Qed.

Section AliasTheorems.
Context `{C : Collaborators}.

Ltac unfold_M :=
  unfold mbind, M_bind, mret, M_ret, lift, throw, get_self, assign in *.

Lemma frame_refl s : frame s s.
Proof. unfold frame. tauto. Qed.

Lemma frame_trans s s1 s2 : frame s s1 -> frame s1 s2 -> frame s s2.
Proof. unfold frame. intuition congruence. Qed.

Lemma for_each_cons {A} (x : A) l body s :
  for_each (x :: l) body s =
  match body x s with
  | (s1, inr _) => for_each l body s1
  | (s1, inl e) => (s1, inl e)
  end.
Proof. reflexivity. Qed.

(** A property kept by every run of the body, failing or not, holds in
    the state the loop leaves behind. *)
Lemma for_each_inv {A} (I : IpBlock -> Prop) (l : list A) body :
  (forall x s s1 r, x ∈ l -> I s -> body x s = (s1, r) -> I s1) ->
  forall s s' r, I s -> for_each l body s = (s', r) -> I s'.
Proof.
  induction l as [|x l IH]; intros Hbody s s' r HI H.
  - injection H as <- _. done.
  - rewrite for_each_cons in H.
    destruct (body x s) as [s1 [e|[]]] eqn:Hx.
    + injection H as <- _. eapply Hbody; [left | done..].
    + eapply IH; [|eapply Hbody; [left | done..] | done].
      intros y t t1 r1 Hy. apply Hbody. by right.
Qed.

(** One run of the body on [(k, ab)]. *)
Lemma merge_block_spec scrub abi w k ab s s1 r :
  merge_block scrub abi w (k, ab) s = (s1, r) ->
  k ∈ dict_keys (reg_blocks s) ->
  frame s s1
  /\ dict_keys (reg_blocks s1) = dict_keys (reg_blocks s)
  /\ (forall k', k' ≠ k ->
        dict_get k' (reg_blocks s1) = dict_get k' (reg_blocks s)
        /\ dict_get k' (device_hier_paths (bus_interfaces s1))
           = dict_get k' (device_hier_paths (bus_interfaces s)))
  /\ if scrub then
       bus_interfaces s1 = bus_interfaces s
       /\ (r = Ok tt -> exists sb, scrub_alias ab w = Ok sb
                                   /\ dict_get k (reg_blocks s1) = Some sb)
     else
       forall k' rb, dict_get k' (reg_blocks s) = Some rb ->
         exists rb', dict_get k' (reg_blocks s1) = Some rb'
                     /\ rb_structure rb' = rb_structure rb.
Proof.
  intros H Hk.
  unfold merge_block in H. unfold_M.
  repeat case_match; simplify_eq/=.
  all: split; [unfold frame; simpl; tauto|].
  all: split; [try done; by apply dict_keys_set_present|].
  all: split;
    [intros k' Hk'; split; try done; apply dict_get_set_ne; congruence|].
  all: try (split; [done|]; intros; try discriminate;
            eexists; split; [done | apply dict_get_set_eq]).
  all: try by eauto.
  all: intros k' rb Hrb.
  all: destruct (decide (k' = k)) as [->|Hne];
    [| exists rb; split; [rewrite dict_get_set_ne by congruence|]; done ].
  all: eexists; split; [apply dict_get_set_eq|].
  all: eapply apply_alias_structure.
  all: match goal with
       | Hg : getitem _ _ = inr ?g |- _ =>
           unfold getitem in Hg; rewrite Hrb in Hg; injection Hg as ->
       end; eassumption.
Qed.

(** What the loop keeps, whether it fails or not. *)
Lemma for_each_merge_inv scrub abi w l s s' r :
  for_each l (merge_block scrub abi w) s = (s', r) ->
  (forall k, k ∈ dict_keys l -> k ∈ dict_keys (reg_blocks s)) ->
  frame s s'
  /\ dict_keys (reg_blocks s') = dict_keys (reg_blocks s)
  /\ (forall k', k' ∉ dict_keys l ->
        dict_get k' (reg_blocks s') = dict_get k' (reg_blocks s)
        /\ dict_get k' (device_hier_paths (bus_interfaces s'))
           = dict_get k' (device_hier_paths (bus_interfaces s)))
  /\ if scrub then bus_interfaces s' = bus_interfaces s
     else
       forall k' rb, dict_get k' (reg_blocks s) = Some rb ->
         exists rb', dict_get k' (reg_blocks s') = Some rb'
                     /\ rb_structure rb' = rb_structure rb.
Proof.
  intros H Hsub.
  eapply (for_each_inv (fun t =>
    frame s t
    /\ dict_keys (reg_blocks t) = dict_keys (reg_blocks s)
    /\ (forall k', k' ∉ dict_keys l ->
          dict_get k' (reg_blocks t) = dict_get k' (reg_blocks s)
          /\ dict_get k' (device_hier_paths (bus_interfaces t))
             = dict_get k' (device_hier_paths (bus_interfaces s)))
    /\ if scrub then bus_interfaces t = bus_interfaces s
       else
         forall k' rb, dict_get k' (reg_blocks s) = Some rb ->
           exists rb', dict_get k' (reg_blocks t) = Some rb'
                       /\ rb_structure rb' = rb_structure rb));
    [| | exact H].
  - intros [k ab] t t1 r1 Hin (Hf & Hkeys & Hother & Hmode) Hrun.
    assert (Hk : k ∈ dict_keys l)
      by (unfold dict_keys; apply list_elem_of_fmap; by exists (k, ab)).
    apply merge_block_spec in Hrun as (Hf1 & Hkeys1 & Hother1 & Hmode1);
      [| rewrite Hkeys; auto].
    split; [by eapply frame_trans|]. split; [congruence|]. split.
    + intros k' Hk'. assert (k' ≠ k) as Hne by congruence.
      destruct (Hother1 k' Hne) as [-> ->]. auto.
    + destruct scrub.
      * destruct Hmode1 as [-> _]. done.
      * intros k' rb Hrb. destruct (Hmode k' rb Hrb) as (rb1 & Hrb1 & Hs1).
        destruct (Hmode1 k' rb1 Hrb1) as (rb2 & Hrb2 & Hs2).
        exists rb2. split; [done | congruence].
  - split; [apply frame_refl|]. split; [done|]. split; [done|].
    destruct scrub; eauto.
Qed.

(** In scrub mode a successful loop leaves, under each aliased key, the
    scrubbed alias block. *)
Lemma for_each_scrub abi w l :
  NoDup (dict_keys l) ->
  forall s s',
  for_each l (merge_block true abi w) s = (s', Ok tt) ->
  (forall k, k ∈ dict_keys l -> k ∈ dict_keys (reg_blocks s)) ->
  forall k ab, (k, ab) ∈ l ->
    exists sb, scrub_alias ab w = Ok sb /\ dict_get k (reg_blocks s') = Some sb.
Proof.
  induction l as [|[k0 ab0] l IH]; intros Hnd s s' H Hsub k ab Hin.
  - by apply elem_of_nil in Hin.
  - simpl in Hnd. apply NoDup_cons in Hnd as [Hk0 Hnd].
    rewrite for_each_cons in H.
    destruct (merge_block true abi w (k0, ab0) s) as [s1 [e|[]]] eqn:Hx;
      [discriminate|].
    apply merge_block_spec in Hx as (_ & Hkeys & _ & _ & Hsb);
      [| apply Hsub; left].
    assert (Hsub1 : forall k, k ∈ dict_keys l -> k ∈ dict_keys (reg_blocks s1)).
    { intros k1 Hk1. rewrite Hkeys. apply Hsub. by right. }
    apply elem_of_cons in Hin as [[= -> ->]|Hin].
    + destruct (Hsb eq_refl) as (sb & Hscrub & Hget). exists sb. split; [done|].
      apply for_each_merge_inv in H as (_ & _ & Hother & _); [|done].
      destruct (Hother k0 Hk0) as [-> _]. done.
    + eapply IH; eauto.
Qed.

(** ** The run of [alias_from_raw], step by step *)

Lemma alias_from_raw_run scrub raw w self :
  alias_from_raw scrub raw w self =
  match alias_interfaces raw w with
  | inl e => (self, inl e)
  | inr abi =>
    if has_unnamed_host abi || bool_decide (named_hosts abi ≠ [])
    then (self, inl ValueError) else
    if has_unnamed_device abi || has_unnamed_device (bus_interfaces self)
    then (self, inl ValueError) else
    if bool_decide (¬ (list_to_set (named_devices abi) : gset string)
                      ⊆ list_to_set (named_devices (bus_interfaces self)))
    then (self, inl ValueError) else
    match alias_impl_name raw w with
    | inl e => (self, inl e)
    | inr impl =>
      let self1 := set_alias_impl (Some impl) self in
      match alias_target_name raw w with
      | inl e => (self1, inl e)
      | inr t =>
        if bool_decide (t ≠ name self) then (self1, inl ValueError) else
        match alias_blocks raw w self with
        | inl e => (self1, inl e)
        | inr arb =>
          if bool_decide (¬ keyset arb ⊆ keyset (reg_blocks self))
          then (self1, inl ValueError) else
          if bool_decide (keyset arb ≠ list_to_set (Some <$> named_devices abi))
          then (self1, inl ValueError) else
          for_each arb (merge_block scrub abi w) self1
        end
      end
    end
  end.
Proof.
  unfold alias_from_raw, alias_interfaces, alias_impl_name, alias_target_name,
    alias_blocks, alias_rd.
  unfold_M. unfold mbind, res_bind.
  destruct (check_keys _ _ _ _) as [e|rd]; [done|].
  destruct (rd_getitem rd "bus_interfaces") as [e|r_bus]; [done|].
  destruct (BusInterfaces_from_raw _ _) as [e|abi]; [done|].
  destruct (_ || _); [done|].
  destruct (_ || _); [done|].
  case_bool_decide; [done|].
  destruct (rd_getitem rd "alias_impl") as [e|r_impl]; [done|].
  destruct (check_name r_impl _) as [e|impl]; [done|]. simpl.
  destruct (rd_getitem rd "alias_target") as [e|r_target]; [done|].
  destruct (check_name r_target _) as [e|t]; [done|].
  case_bool_decide; [done|].
  destruct (rd_getitem rd "registers") as [e|r_regs]; [done|].
  destruct (build_blocks _ _ _ _ _) as [e|arb]; [done|].
  case_bool_decide; [done|].
  case_bool_decide; done.
Qed.

(** A successful run passed every check and ran the merge loop from the
    state in which only the implementation identifier was recorded. *)
Lemma alias_from_raw_ok scrub raw w self s' :
  alias_from_raw scrub raw w self = (s', Ok tt) ->
  exists abi impl arb,
    alias_interfaces raw w = Ok abi
    /\ interfaces_admissible self abi
    /\ alias_impl_name raw w = Ok impl
    /\ reaches_merge raw w self abi arb
    /\ for_each arb (merge_block scrub abi w) (set_alias_impl (Some impl) self)
       = (s', Ok tt).
Proof.
  rewrite alias_from_raw_run. unfold interfaces_admissible, reaches_merge.
  destruct (alias_interfaces raw w) as [e|abi]; [discriminate|].
  destruct (has_unnamed_host abi) eqn:?; [discriminate|]. simpl.
  case_bool_decide as Hhosts; [discriminate|].
  destruct (has_unnamed_device abi) eqn:?; [discriminate|]. simpl.
  destruct (has_unnamed_device (bus_interfaces self)) eqn:?; [discriminate|].
  case_bool_decide as Hsub; [discriminate|].
  destruct (alias_impl_name raw w) as [e|impl]; [discriminate|].
  destruct (alias_target_name raw w) as [e|t]; [discriminate|]. simpl.
  case_bool_decide as Ht; [discriminate|]. subst t.
  destruct (alias_blocks raw w self) as [e|arb]; [discriminate|].
  case_bool_decide as Hsub2; [discriminate|].
  case_bool_decide as Heq; [discriminate|].
  intros H. exists abi, impl, arb. done.
Qed.

Lemma keyset_named (arb : pydict devkey RegBlock) (abi : BusInterfaces) k :
  keyset arb = list_to_set (Some <$> named_devices abi) ->
  k ∈ dict_keys arb <-> k ∈ (Some <$> named_devices abi).
Proof.
  intros Heq. rewrite <- elem_of_keyset, Heq. apply elem_of_list_to_set.
Qed.

Lemma reaches_merge_keys raw w self abi arb :
  reaches_merge raw w self abi arb ->
  forall k, k ∈ dict_keys arb -> k ∈ dict_keys (reg_blocks self).
Proof.
  intros (_ & _ & Hsub & _) k Hk.
  apply elem_of_keyset, Hsub, elem_of_keyset, Hk.
Qed.

(** C2.  A successful merge in non-scrub mode keeps the keys of the
    register-block mapping, leaves the register block and the
    hierarchical path of every interface the alias description does not
    name as they were, and keeps the structure of every register block:
    register count, gating registers, and the bit position, width and
    access of every field.  Besides the register blocks and hierarchical
    paths of the aliased interfaces, only [alias_impl] changes. *)
Theorem alias_merge_preserves_structure raw w self s' :
  alias_from_raw false raw w self = (s', Ok tt) ->
  exists abi impl,
    alias_interfaces raw w = Ok abi
    /\ alias_impl_name raw w = Ok impl
    /\ frame (set_alias_impl (Some impl) self) s'
    /\ dict_keys (reg_blocks s') = dict_keys (reg_blocks self)
    /\ (forall k, k ∉ (Some <$> named_devices abi) ->
          dict_get k (reg_blocks s') = dict_get k (reg_blocks self)
          /\ dict_get k (device_hier_paths (bus_interfaces s'))
             = dict_get k (device_hier_paths (bus_interfaces self)))
    /\ (forall k rb, dict_get k (reg_blocks self) = Some rb ->
          exists rb', dict_get k (reg_blocks s') = Some rb'
                      /\ rb_structure rb' = rb_structure rb).
Proof.
  intros H. apply alias_from_raw_ok in H
    as (abi & impl & arb & Habi & _ & Himpl & Hreach & Hloop).
  pose proof (reaches_merge_keys _ _ _ _ _ Hreach) as Hkeys.
  destruct Hreach as (_ & _ & _ & Hnames).
  apply for_each_merge_inv in Hloop as (Hf & Hk & Hother & Hstruct); [|done].
  simpl in *. exists abi, impl. do 4 (split; [done|]). split; [|done].
  intros k Hk'. apply Hother. by rewrite keyset_named.
Qed.

(** C3.  A successful merge in scrub mode stores, under the key of each
    alias register block, the result of [scrub_alias] on that block; the
    register blocks of the interfaces the alias description does not name,
    the keys of the mapping and the bus interfaces are as before. *)
Theorem alias_scrub_replaces raw w self s' arb :
  alias_blocks raw w self = Ok arb ->
  NoDup (dict_keys arb) ->
  alias_from_raw true raw w self = (s', Ok tt) ->
  exists abi,
    alias_interfaces raw w = Ok abi
    /\ keyset arb = list_to_set (Some <$> named_devices abi)
    /\ (forall k ab, (k, ab) ∈ arb ->
          exists sb, scrub_alias ab w = Ok sb
                     /\ dict_get k (reg_blocks s') = Some sb)
    /\ (forall k, k ∉ (Some <$> named_devices abi) ->
          dict_get k (reg_blocks s') = dict_get k (reg_blocks self))
    /\ dict_keys (reg_blocks s') = dict_keys (reg_blocks self)
    /\ bus_interfaces s' = bus_interfaces self.
Proof.
  intros Harb Hnd H. apply alias_from_raw_ok in H
    as (abi & impl & arb' & Habi & _ & Himpl & Hreach & Hloop).
  pose proof (reaches_merge_keys _ _ _ _ _ Hreach) as Hkeys.
  destruct Hreach as (_ & Harb' & _ & Hnames).
  rewrite Harb in Harb'. injection Harb' as <-.
  exists abi. do 2 (split; [done|]). split.
  { eapply for_each_scrub; eauto. }
  apply for_each_merge_inv in Hloop as (_ & Hk & Hother & Hbus); [|done].
  simpl in *. split; [|done].
  intros k Hk'. apply Hother. by rewrite keyset_named.
Qed.

(** C5.  An alias description whose target name differs from the name of
    the IP block is rejected, whatever its registers are; the register
    blocks and bus interfaces are as before. *)
Theorem alias_target_mismatch_fails scrub raw w self t :
  alias_target_name raw w = Ok t ->
  t ≠ name self ->
  exists s' e,
    alias_from_raw scrub raw w self = (s', inl e)
    /\ reg_blocks s' = reg_blocks self
    /\ bus_interfaces s' = bus_interfaces self.
Proof.
  intros Ht Hne. rewrite alias_from_raw_run, Ht.
  destruct (alias_interfaces raw w) as [e|abi]; [eauto|].
  destruct (_ || _); [eauto|].
  destruct (_ || _); [eauto|].
  case_bool_decide; [eauto|].
  destruct (alias_impl_name raw w) as [e|impl]; [eauto|]. simpl.
  rewrite bool_decide_true by done. eauto.
Qed.

(** C6.  The merge is rejected, and [self] is left exactly as it was,
    whenever the IP block has an unnamed device interface, and whenever
    the alias description declares a host interface, named or unnamed, or
    an unnamed device interface. *)
Theorem alias_rejects_hosts_and_unnamed scrub raw w self :
  has_unnamed_device (bus_interfaces self) = true
  \/ (exists abi, alias_interfaces raw w = Ok abi
                  /\ (has_unnamed_host abi = true \/ named_hosts abi ≠ []
                      \/ has_unnamed_device abi = true)) ->
  exists e, alias_from_raw scrub raw w self = (self, inl e).
Proof.
  intros H. rewrite alias_from_raw_run.
  destruct (alias_interfaces raw w) as [e|abi]; [eauto|].
  destruct H as [Hself | (abi' & [= <-] & Hbad)].
  - destruct (_ || _); [eauto|]. rewrite Hself, orb_true_r. eauto.
  - destruct Hbad as [-> | [Hhosts | Hun]]; simpl; [eauto| |].
    + rewrite bool_decide_true by done. rewrite orb_true_r. eauto.
    + destruct (_ || _); [eauto|]. rewrite Hun. simpl. eauto.
Qed.

(** A failing loop ran its body with success on the items before the
    failing one, and stopped in the state the failing run left. *)
Lemma for_each_fail {A} (l : list A) body :
  forall s s' e,
  for_each l body s = (s', inl e) ->
  exists pre x post s_mid,
    l = pre ++ x :: post
    /\ for_each pre body s = (s_mid, Ok tt)
    /\ body x s_mid = (s', inl e).
Proof.
  induction l as [|x l IH]; intros s s' e H; [discriminate|].
  rewrite for_each_cons in H.
  destruct (body x s) as [s1 [e1|[]]] eqn:Hx.
  - injection H as <- <-. exists [], x, l, s. done.
  - apply IH in H as (pre & y & post & s_mid & -> & Hpre & Hy).
    exists (x :: pre), y, post, s_mid. split; [done|]. split; [|done].
    rewrite for_each_cons, Hx. exact Hpre.
Qed.

(** A failing run of the body leaves the register blocks as they were. *)
Lemma merge_block_fail_blocks scrub abi w item s s1 e :
  merge_block scrub abi w item s = (s1, inl e) ->
  reg_blocks s1 = reg_blocks s.
Proof.
  destruct item as [k ab]. intros H. unfold merge_block in H. unfold_M.
  repeat case_match; simplify_eq/=; done.
Qed.

(** C10 (as amended).  Once the interface checks have passed and the
    implementation identifier has been read, every run, failing or not,
    ends with [alias_impl] set to that identifier.  A run that does not
    reach the merge loop fails and changes nothing else.  A run that fails
    inside the merge loop stops at the first failing interface: the
    interfaces before it were merged with success, the failing one left the
    register blocks as those merges made them, and the merges stay in
    place. *)
Theorem alias_impl_recorded scrub raw w self abi impl s' r :
  alias_interfaces raw w = Ok abi ->
  interfaces_admissible self abi ->
  alias_impl_name raw w = Ok impl ->
  alias_from_raw scrub raw w self = (s', r) ->
  alias_impl s' = Some impl
  /\ ((forall arb, ¬ reaches_merge raw w self abi arb) ->
      s' = set_alias_impl (Some impl) self /\ exists e, r = inl e)
  /\ (forall arb e,
        reaches_merge raw w self abi arb -> r = inl e ->
        exists pre item post s_mid,
          arb = pre ++ item :: post
          /\ for_each pre (merge_block scrub abi w)
                      (set_alias_impl (Some impl) self) = (s_mid, Ok tt)
          /\ merge_block scrub abi w item s_mid = (s', inl e)
          /\ reg_blocks s' = reg_blocks s_mid).
Proof.
  intros Habi (Hh & Hnh & Hud & Hus & Hsub) Himpl.
  rewrite alias_from_raw_run, Habi, Hh, Hnh, Hud, Hus, Himpl. simpl.
  rewrite (bool_decide_false (¬ _)) by (intros Hn; by apply Hn).
  unfold reaches_merge.
  destruct (alias_target_name raw w) as [e|t].
  { intros [= <- <-]. split; [done|]. split; [eauto|].
    intros arb e0 (Ht & _) _. discriminate. }
  case_bool_decide as Ht.
  { intros [= <- <-]. split; [done|]. split; [eauto|].
    intros arb e0 (Ht' & _) _. injection Ht' as ->. done. }
  subst t.
  destruct (alias_blocks raw w self) as [e|arb].
  { intros [= <- <-]. split; [done|]. split; [eauto|].
    intros arb e0 (_ & Hb & _) _. discriminate. }
  case_bool_decide as Hs1.
  { intros [= <- <-]. split; [done|]. split; [eauto|].
    intros arb' e0 (_ & Hb & Hsub' & _) _. injection Hb as <-. done. }
  case_bool_decide as Hs2.
  { intros [= <- <-]. split; [done|]. split; [eauto|].
    intros arb' e0 (_ & Hb & _ & Heq) _. injection Hb as <-. done. }
  intros Hloop. split; [|split].
  - apply for_each_merge_inv in Hloop as (Hf & _).
    + unfold frame in Hf. simpl in Hf. tauto.
    + simpl. intros k Hk. apply elem_of_keyset, Hs1, elem_of_keyset, Hk.
  - intros Hno. exfalso. apply (Hno arb). done.
  - intros arb' e0 (_ & Hb & _) ->. injection Hb as <-.
    apply for_each_fail in Hloop as (pre & item & post & s_mid & Harb & Hpre & Hitem).
    exists pre, item, post, s_mid. do 3 (split; [done|]).
    by eapply merge_block_fail_blocks.
Qed.
End AliasTheorems.

(** ** Substring test *)




(** ** Serialization and the regwen audit *)




Section Queries.
Context `{C : Collaborators}.

(** C8.  [_asdict] returns, in this order, the name, the register width,
    the register content, the parameter list, the version as a plain
    string, the bus-interface list, the clock list and the three scan
    flags.  The register content is the flat list of the single block
    exactly when the mapping has one block and that block is keyed by the
    unnamed key; in every other case it is the mapping from key to list. *)
Theorem asdict_shape (self : IpBlock) :
  exists regs,
    _asdict self =
      Ok [("name", VStr (name self));
          ("regwidth", VInt (regwidth self));
          ("registers", regs);
          ("param_list", VList (params_as_dicts (params self)));
          ("version", VStr (Version_str (version self)));
          ("bus_interfaces", VList (bus_as_dicts (bus_interfaces self)));
          ("clocking", VClockItems (clocking_items (clocking self)));
          ("scan", VBool (scan self));
          ("scan_reset", VBool (scan_reset self));
          ("scan_en", VBool (scan_en self))]
    /\ ((length (reg_blocks self) = 1%nat /\ None ∈ dict_keys (reg_blocks self)) ->
        exists rb, reg_blocks self = [(None, rb)] /\ regs = VList (rb_as_dicts rb))
    /\ (¬ (length (reg_blocks self) = 1%nat /\ None ∈ dict_keys (reg_blocks self)) ->
        regs = VMapping ((fun kv => (kv.1, rb_as_dicts kv.2)) <$> reg_blocks self)).
Proof.
  unfold _asdict.
  destruct (bool_decide (length (reg_blocks self) = 1%nat)
            && bool_decide (None ∈ dict_keys (reg_blocks self))) eqn:Hc.
  - apply andb_true_iff in Hc as [Hlen Hin].
    apply bool_decide_eq_true in Hlen, Hin.
    destruct (reg_blocks self) as [|[k rb] [|]] eqn:Hrb; try discriminate.
    simpl in Hin. apply list_elem_of_singleton in Hin as <-.
    simpl. eexists. split; [reflexivity|]. split.
    + intros _. eauto.
    + intros Hn. exfalso. apply Hn. split; [done|]. simpl. left.
  - eexists. split; [reflexivity|]. split.
    + intros [Hlen Hin]. rewrite !bool_decide_true in Hc by done. discriminate.
    + done.
Qed.

End Queries.

(** ** The theorems at work on [uart] *)

Example from_raw_uart :
  from_raw (C:=reference_fallback) [] uart_raw "uart.hjson" "" = Ok uart.
Proof. vm_compute. reflexivity. Qed.

Lemma from_raw_bijection_witness :
  keyset (reg_blocks uart_core_view)
  = declared_devices (bus_interfaces uart_core_view) ∩ {[Some "core"]}.
Proof.
  apply (from_raw_bijection (C:=reference_fallback) [] uart_raw "uart.hjson" "core"
                            uart_core_view).
  vm_compute. reflexivity.
Defined.

(** C1, counterexample.  With the node selector [core] the description of
    [uart], which declares [core] and [dma], is accepted, and so is the
    direct construction; the block built keeps the single key [core] while
    its bus interfaces still declare both. *)
Lemma node_view_not_bijective :
  from_raw (C:=reference_fallback) [] uart_raw "uart.hjson" "core" = Ok uart_core_view
  /\ IpBlock_new (C:=reference_fallback) "uart" 32 uart_params
       [(Some "core", uart_core_block); (Some "dma", uart_dma_block)]
       uart_bus uart_clocking (StrVersion "0.0.0") false false false "core"
     = Ok uart_core_view
  /\ keyset (reg_blocks uart_core_view)
     ≠ declared_devices (bus_interfaces uart_core_view).
Proof.
  split; [vm_compute; reflexivity|]. split; [vm_compute; reflexivity|].
  intros H. apply (f_equal (fun X => bool_decide (Some "dma" ∈ X))) in H.
  vm_compute in H. discriminate.
Qed.

Lemma node_filter_selects_witness :
  exists b,
    IpBlock_new (C:=reference_fallback) "uart" 32 uart_params
      [(Some "core", uart_core_block); (Some "dma", uart_dma_block)]
      uart_bus uart_clocking (StrVersion "0.0.0") false false false "dma" = Ok b
    /\ reg_blocks b = filter (fun kv => kv.1 = Some "dma")
                             [(Some "core", uart_core_block); (Some "dma", uart_dma_block)]
    /\ keyset (reg_blocks b) = {[Some "dma"]}.
Proof.
  apply (node_filter_selects (C:=reference_fallback)).
  - discriminate.
  - vm_compute. right. left.
  - reflexivity.
  - apply (bool_decide_unpack _). vm_compute. exact I.
Defined.

(** C4, counterexample.  With a node selector that names none of the
    declared interfaces, construction succeeds and the register-block
    mapping of the block built is empty: it does not contain the key of the
    selector. *)
Lemma undeclared_node_yields_empty :
  from_raw (C:=reference_fallback) [] uart_raw "uart.hjson" "spi" = Ok uart_spi_view
  /\ IpBlock_new (C:=reference_fallback) "uart" 32 uart_params
       [(Some "core", uart_core_block); (Some "dma", uart_dma_block)]
       uart_bus uart_clocking (StrVersion "0.0.0") false false false "spi"
     = Ok uart_spi_view
  /\ reg_blocks uart_spi_view = []
  /\ keyset (reg_blocks uart_spi_view) ≠ {[Some "spi"]}.
Proof.
  split; [vm_compute; reflexivity|]. split; [vm_compute; reflexivity|].
  split; [reflexivity|].
  intros H. apply (f_equal (fun X => bool_decide (Some "spi" ∈ X))) in H.
  vm_compute in H. discriminate.
Qed.

Lemma from_raw_version_witness :
  Version_new (C:=reference_fallback) (rd_get uart_rd "version" (PyStr "0.0.0"))
  = Ok (version uart).
Proof.
  apply (from_raw_version (C:=reference_fallback) [] uart_raw "uart.hjson" "" uart_rd uart).
  - vm_compute. reflexivity.
  - vm_compute. reflexivity.
Defined.

(** C7, counterexample.  Where the optional version library is installed,
    the description of [uart] is accepted, and the same description with the
    version ["draft"] is rejected. *)
Lemma unparsable_version_aborts :
  is_ok (from_raw (C:=reference_installed) [] uart_raw "uart.hjson" "") = true
  /\ from_raw (C:=reference_installed) [] uart_raw_odd_version "uart.hjson" ""
     = raise ValueError.
Proof. split; vm_compute; reflexivity. Qed.

Lemma alias_merge_preserves_structure_witness :
  exists abi impl,
    alias_interfaces (C:=reference_fallback) (alias_core_raw "uart") "alias.hjson" = Ok abi
    /\ alias_impl_name (C:=reference_fallback) (alias_core_raw "uart") "alias.hjson" = Ok impl
    /\ frame (set_alias_impl (Some impl) uart)
             (alias_from_raw false (alias_core_raw "uart") "alias.hjson" uart).1
    /\ dict_keys (reg_blocks (alias_from_raw false (alias_core_raw "uart") "alias.hjson" uart).1)
       = dict_keys (reg_blocks uart)
    /\ (forall k, k ∉ (Some <$> named_devices abi) ->
          dict_get k (reg_blocks (alias_from_raw false (alias_core_raw "uart") "alias.hjson" uart).1)
          = dict_get k (reg_blocks uart)
          /\ dict_get k (device_hier_paths (bus_interfaces
               (alias_from_raw false (alias_core_raw "uart") "alias.hjson" uart).1))
             = dict_get k (device_hier_paths (bus_interfaces uart)))
    /\ (forall k rb, dict_get k (reg_blocks uart) = Some rb ->
          exists rb',
            dict_get k (reg_blocks (alias_from_raw false (alias_core_raw "uart") "alias.hjson" uart).1)
            = Some rb'
            /\ rb_structure rb' = rb_structure rb).
Proof.
  apply (alias_merge_preserves_structure (C:=reference_fallback)).
  vm_compute. reflexivity.
Defined.

Lemma alias_scrub_replaces_witness :
  exists abi,
    alias_interfaces (C:=reference_fallback) (alias_core_raw "uart") "alias.hjson" = Ok abi
    /\ keyset [(Some "core", alias_core_block)] = list_to_set (Some <$> named_devices abi)
    /\ (forall k ab, (k, ab) ∈ [(Some "core", alias_core_block)] ->
          exists sb, scrub_alias (Collaborators:=reference_fallback) ab "alias.hjson" = Ok sb
            /\ dict_get k (reg_blocks (alias_from_raw true (alias_core_raw "uart") "alias.hjson" uart).1)
               = Some sb)
    /\ (forall k, k ∉ (Some <$> named_devices abi) ->
          dict_get k (reg_blocks (alias_from_raw true (alias_core_raw "uart") "alias.hjson" uart).1)
          = dict_get k (reg_blocks uart))
    /\ dict_keys (reg_blocks (alias_from_raw true (alias_core_raw "uart") "alias.hjson" uart).1)
       = dict_keys (reg_blocks uart)
    /\ bus_interfaces (alias_from_raw true (alias_core_raw "uart") "alias.hjson" uart).1
       = bus_interfaces uart.
Proof.
  apply (alias_scrub_replaces (C:=reference_fallback)).
  - vm_compute. reflexivity.
  - apply (bool_decide_unpack _). vm_compute. exact I.
  - vm_compute. reflexivity.
Defined.

Lemma alias_target_mismatch_fails_witness :
  exists s' e,
    alias_from_raw (C:=reference_fallback) true (alias_core_raw "spi_device")
                   "alias.hjson" uart = (s', inl e)
    /\ reg_blocks s' = reg_blocks uart
    /\ bus_interfaces s' = bus_interfaces uart.
Proof.
  apply (alias_target_mismatch_fails (C:=reference_fallback) true
           (alias_core_raw "spi_device") "alias.hjson" uart "spi_device").
  - vm_compute. reflexivity.
  - vm_compute. discriminate.
Defined.

Lemma alias_rejects_hosts_and_unnamed_witness :
  exists e,
    alias_from_raw (C:=reference_fallback) false alias_host_raw "alias.hjson" uart
    = (uart, inl e).
Proof.
  apply (alias_rejects_hosts_and_unnamed (C:=reference_fallback)).
  right. exists (mkBusInterfaces [] false ["out"] false [] []).
  split; [vm_compute; reflexivity|]. right. left. discriminate.
Defined.

Lemma alias_impl_recorded_witness :
  alias_impl (alias_from_raw (C:=reference_fallback) false (alias_core_raw "spi_device")
                             "alias.hjson" uart).1 = Some "uart_hardened".
Proof.
  refine (proj1 (alias_impl_recorded (C:=reference_fallback) false
           (alias_core_raw "spi_device") "alias.hjson" uart
           (mkBusInterfaces ["core"] false [] false
              [(Some "core", "clk_core")] [(Some "core", "u_core_alias")])
           "uart_hardened"
           (alias_from_raw false (alias_core_raw "spi_device") "alias.hjson" uart).1
           (alias_from_raw false (alias_core_raw "spi_device") "alias.hjson" uart).2
           _ _ _ _)).
  - vm_compute. reflexivity.
  - repeat split; try reflexivity.
    apply (bool_decide_unpack _). vm_compute. exact I.
  - vm_compute. reflexivity.
  - apply surjective_pairing.
Defined.

(** C10, counterexample.  The alias description names [core] and [dma] and
    disagrees with [uart] on the clock of [dma].  The merge aliases [core],
    then fails on [dma]: the implementation identifier is recorded and the
    register block of [core] has changed. *)
Lemma late_failure_keeps_earlier_merge :
  alias_from_raw (C:=reference_fallback) false alias_bad_dma_raw "alias.hjson" uart
  = (uart_half_merged, raise ValueError)
  /\ alias_impl uart_half_merged = Some "uart_hardened"
  /\ dict_get (Some "core") (reg_blocks uart) = Some uart_core_block
  /\ dict_get (Some "core") (reg_blocks uart_half_merged) = Some alias_core_block
  /\ alias_core_block ≠ uart_core_block
  /\ alias_from_raw (C:=reference_fallback) true alias_bad_dma_raw "alias.hjson" uart
     = (uart_half_scrubbed, raise ValueError)
  /\ dict_get (Some "core") (reg_blocks uart_half_scrubbed) = Some scrubbed_core_block
  /\ scrubbed_core_block ≠ uart_core_block.
Proof.
  split; [vm_compute; reflexivity|]. do 3 (split; [reflexivity|]).
  split; [discriminate|]. split; [vm_compute; reflexivity|].
  split; [reflexivity | discriminate].
Qed.

